(** * A todo-list front-end: the list screen and the navigator

    The development follows the three source files of the application:
    - [HomeScreen] (the list view): its task state, the handlers that talk
      to the task API, the filtering and ordering of the displayed list and
      the navigation it triggers;
    - [AppNavigator]: the navigation stack and its routes;
    - [App]: the root component.

    Strings stand for the sequences of their units; numbers returned by
    [Date.prototype.getTime] are integers (milliseconds) or NaN, written
    [option Z] with [None] for NaN. *)

From Stdlib Require Import Ascii String ZArith.
From stdpp Require Import list strings numbers sorting.

Local Open Scope string_scope.
Local Open Scope list_scope.
Local Open Scope Z_scope.

(** ** Strings *)

Module JsString.

(** [s.startsWith(p)]. *)
Fixpoint startsWith (s p : string) {struct p} : bool :=
  match p, s with
  | EmptyString, _ => true
  | String c p', String d s' => Ascii.eqb c d && startsWith s' p'
  | String _ _, EmptyString => false
  end.

(** [s.includes(q)]: [q] occurs in [s] as a contiguous run of units,
    searched from position 0. *)
Fixpoint includes (s q : string) : bool :=
  startsWith s q ||
  match s with
  | EmptyString => false
  | String _ s' => includes s' q
  end.

(** Lower-casing restricted to the letters A-Z; one instance of the
    engine's [String.prototype.toLowerCase]. *)
Definition asciiLowerChar (c : ascii) : ascii :=
  let n := nat_of_ascii c in
  if ((65 <=? n) && (n <=? 90))%nat then ascii_of_nat (n + 32) else c.

Fixpoint asciiLower (s : string) : string :=
  match s with
  | EmptyString => EmptyString
  | String c s' => String (asciiLowerChar c) (asciiLower s')
  end.

End JsString.

(** ** Dates *)

Module JsDate.

Definition digit (c : ascii) : option Z :=
  let n := nat_of_ascii c in
  if ((48 <=? n) && (n <=? 57))%nat then Some (Z.of_nat n - 48) else None.

Fixpoint digits (acc : Z) (cs : list ascii) : option Z :=
  match cs with
  | [] => Some acc
  | c :: cs' =>
      match digit c with
      | Some d => digits (10 * acc + d) cs'
      | None => None
      end
  end.

Definition isLeap (y : Z) : bool :=
  ((y mod 4 =? 0) && negb (y mod 100 =? 0)) || (y mod 400 =? 0).

Definition daysInMonth (y m : Z) : Z :=
  if m =? 2 then (if isLeap y then 29 else 28)
  else if (m =? 4) || (m =? 6) || (m =? 9) || (m =? 11) then 30
  else 31.

(** Days between 1970-01-01 and the given civil date. *)
Definition daysFromCivil (y m d : Z) : Z :=
  let y' := if m <=? 2 then y - 1 else y in
  let era := y' / 400 in
  let yoe := y' - era * 400 in
  let mp := (m + 9) mod 12 in
  let doy := (153 * mp + 2) / 5 + d - 1 in
  let doe := yoe * 365 + yoe / 4 - yoe / 100 + doy in
  era * 146097 + doe - 719468.

Definition msPerDay : Z := 86400000.

(** The time value of the date-only form [YYYY-MM-DD] of the ECMAScript
    date-time string format (midnight UTC); every other string is taken
    to be unparseable.  One instance of [new Date(s).getTime()]. *)
Definition isoDateTime (s : string) : option Z :=
  match list_ascii_of_string s with
  | [y1; y2; y3; y4; "-"%char; m1; m2; "-"%char; d1; d2] =>
      match digits 0 [y1; y2; y3; y4], digits 0 [m1; m2], digits 0 [d1; d2] with
      | Some y, Some m, Some d =>
          if (1 <=? m) && (m <=? 12) && (1 <=? d) && (d <=? daysInMonth y m)
          then Some (daysFromCivil y m d * msPerDay)
          else None
      | _, _, _ => None
      end
  | _ => None
  end.

End JsDate.

(** ** The task record (HomeScreen, [interface Task]) *)

Record Task := {
  id : string;
  title : string;
  description : option string;
  dueDate : option string;
  isCompleted : bool;
  createdAt : string
}.

(** ** Values of JavaScript expressions used as conditions *)

(** [a || b] where [a] is a boolean and [b] is a boolean or [undefined]
    ([None]): the value is [a] when [a] is truthy and [b] otherwise. *)
Definition jsOr (a : bool) (b : option bool) : option bool :=
  if a then Some true else b.

(** [ToBoolean] on such a value: [undefined] is falsy. *)
Definition truthy (v : option bool) : bool :=
  match v with
  | Some b => b
  | None => false
  end.

(** ** [Array.prototype.sort] *)

Section ArraySort.
Context {A : Type}.

(** The comparator returns a number; NaN is [None]. *)
Variable comparefn : A → A → option Z.

(** The value the sort works with: a NaN result counts as [+0]. *)
Definition sortCompare (x y : A) : Z :=
  match comparefn x y with
  | Some v => v
  | None => 0
  end.

(** The built-in is modelled by a stable insertion sort: [x] moves past
    [y] only when the comparator puts it strictly after [y].  The language
    requires the sort to be stable, so for a consistent comparator every
    conforming engine returns this same list; for an inconsistent one the
    language leaves the order to the engine, and the model stands for an
    engine that inserts. *)
Fixpoint sort_insert (x : A) (l : list A) : list A :=
  match l with
  | [] => [x]
  | y :: l' =>
      if 0 <? sortCompare x y then y :: sort_insert x l' else x :: y :: l'
  end.

Fixpoint Array_sort (l : list A) : list A :=
  match l with
  | [] => []
  | x :: l' => sort_insert x (Array_sort l')
  end.

End ArraySort.

(** ** The displayed list (HomeScreen, [filteredTasks]) *)

Section FilteredTasks.

(** The engine's [String.prototype.toLowerCase] and
    [new Date(s).getTime()]. *)
Variable toLowerCase : string → string.
Variable Date_getTime : string → option Z.

(** The predicate given to [tasks.filter]. *)
Definition matchesQuery (searchQuery : string) (task : Task) : option bool :=
  jsOr
    (JsString.includes (toLowerCase (title task)) (toLowerCase searchQuery))
    (match description task with
     | Some d =>
         Some (JsString.includes (toLowerCase d) (toLowerCase searchQuery))
     | None => None
     end).

(** The comparator given to [sort].  Time values are integers; the
    difference of two of them has the sign of the exact difference. *)
Definition compareTasks (a b : Task) : option Z :=
  if negb (Bool.eqb (isCompleted a) (isCompleted b))
  then Some (if isCompleted a then 1 else -1)
  else
    match Date_getTime (createdAt a), Date_getTime (createdAt b) with
    | Some ta, Some tb => Some (ta - tb)
    | _, _ => None
    end.

Definition filteredTasks (tasks : list Task) (searchQuery : string) : list Task :=
  Array_sort compareTasks
    (List.filter (λ task, truthy (matchesQuery searchQuery task)) tasks).

End FilteredTasks.

Definition mkTask (i t : string) (d : option string) (c : bool) (at_ : string) : Task :=
  {| id := i; title := t; description := d; dueDate := None;
     isCompleted := c; createdAt := at_ |}.

(** ** Requests to the task API *)

Definition API_URL : string := "http://10.0.2.2:3000/api/tasks".

Inductive Method := GET | POST | PUT | DELETE.

(** The body of the update request, [{ is_completed: ... }]. *)
Record Body := { is_completed : bool }.

Record Request := {
  method : Method;
  url : string;
  body : option Body
}.

Record Response := { data : list Task }.

(** An awaited axios call rejects when the network fails or the status is
    outside 2xx. *)
Inductive AxiosError := NetworkError | StatusError (status : Z).

Definition axios_get (u : string) : Request :=
  {| method := GET; url := u; body := None |}.
Definition axios_put (u : string) (b : Body) : Request :=
  {| method := PUT; url := u; body := Some b |}.
Definition axios_delete (u : string) : Request :=
  {| method := DELETE; url := u; body := None |}.

(** ** Navigation parameters (AppNavigator, [RootStackParamList]) *)

(** [{ taskId?: string }]; [undefined] parameters are [None] at the use. *)
Record AddEditParams := { taskId : option string }.

(** ** Alerts *)

Inductive ButtonStyle := StyleDefault | StyleCancel | StyleDestructive.

Record AlertButton := { text : string; style : ButtonStyle }.

(** ** Effects of the list screen and programs over them *)

Inductive Effect : Type → Type :=
| Axios (r : Request) : Effect (Response + AxiosError)
| SetTasks (ts : list Task) : Effect unit
| SetLoading (b : bool) : Effect unit
| SetSearchQuery (q : string) : Effect unit
| ConsoleError (msg : string) : Effect unit
| Alert_alert (title message : string) (buttons : list AlertButton) :
    Effect (option nat)
| Navigate (route : string) (params : option AddEditParams) : Effect unit.

Inductive Prog (A : Type) : Type :=
| Ret (a : A)
| Vis {X : Type} (e : Effect X) (k : X → Prog A).
Arguments Ret {A} a.
Arguments Vis {A X} e k.

Fixpoint Prog_bind {A B} (f : A → Prog B) (p : Prog A) : Prog B :=
  match p with
  | Ret a => f a
  | Vis e k => Vis e (λ x, Prog_bind f (k x))
  end.

#[global] Instance Prog_ret : MRet Prog := λ A a, Ret a.
#[global] Instance Prog_mbind : MBind Prog := λ A B f p, Prog_bind f p.

Definition perform {X} (e : Effect X) : Prog X := Vis e Ret.

(** ** The list screen (HomeScreen) *)

Record State := {
  tasks : list Task;
  loading : bool;
  searchQuery : string
}.

Definition initialState : State :=
  {| tasks := []; loading := false; searchQuery := "" |}.

Definition fetchTasks : Prog unit :=
  perform (SetLoading true);;
  r ← perform (Axios (axios_get API_URL));
  match r with
  | inl response => perform (SetTasks (data response))
  | inr error =>
      perform (ConsoleError "Fetch error:");;
      perform (Alert_alert "Hata"
        "Görevler yüklenirken bir sorun oluştu. Backend çalışıyor mu?" []);;
      mret tt
  end;;
  perform (SetLoading false).

Definition handleToggleComplete (task : Task) : Prog unit :=
  r ← perform (Axios (axios_put (API_URL +:+ "/" +:+ id task)
                        {| is_completed := negb (isCompleted task) |}));
  match r with
  | inl _ => fetchTasks
  | inr error =>
      perform (Alert_alert "Hata"
        "Görevin durumunu güncellerken hata oluştu." []);;
      mret tt
  end.

(** The action of the confirming button of [handleDelete]. *)
Definition handleDelete_onPress (id : string) : Prog unit :=
  r ← perform (Axios (axios_delete (API_URL +:+ "/" +:+ id)));
  match r with
  | inl _ => fetchTasks
  | inr error =>
      perform (Alert_alert "Hata" "Görev silinirken hata oluştu." []);;
      mret tt
  end.

Definition handleDelete_buttons (id : string) :
    list (AlertButton * option (Prog unit)) :=
  [ ({| text := "İptal"; style := StyleCancel |}, None);
    ({| text := "Sil"; style := StyleDestructive |},
     Some (handleDelete_onPress id)) ].

(** The alert answers with the index of the pressed button, if any; the
    button's [onPress] then runs. *)
Definition handleDelete (id : string) : Prog unit :=
  let buttons := handleDelete_buttons id in
  pressed ← perform (Alert_alert "Görevi Sil"
    "Bu görevi silmek istediğinizden emin misiniz?" (buttons.*1));
  match pressed ≫= (buttons !!.) with
  | Some (_, Some onPress) => onPress
  | _ => mret tt
  end.

Definition handleEdit (id : string) : Prog unit :=
  perform (Navigate "add_edit" (Some {| taskId := Some id |})).

Definition handleAdd : Prog unit :=
  perform (Navigate "add_edit" None).

(** What the user can do on the screen: the focus effect, the three
    touchables of a [TodoItem], the floating button and the search box. *)
Inductive Gesture :=
| Focus
| PressCheckbox (item : Task)
| PressEdit (item : Task)
| PressDelete (item : Task)
| PressFAB
| ChangeSearchText (text : string).

Definition onGesture (g : Gesture) : Prog unit :=
  match g with
  | Focus => fetchTasks
  | PressCheckbox item => handleToggleComplete item
  | PressEdit item => handleEdit (id item)
  | PressDelete item => handleDelete (id item)
  | PressFAB => handleAdd
  | ChangeSearchText text => perform (SetSearchQuery text)
  end.

Fixpoint session (gs : list Gesture) : Prog unit :=
  match gs with
  | [] => mret tt
  | g :: gs' => onGesture g;; session gs'
  end.

(** ** Running a program against the outside world *)

(** What an execution leaves behind: each effect with the answer it got. *)
Inductive Event :=
| EvRequest (r : Request) (result : Response + AxiosError)
| EvSetTasks (ts : list Task)
| EvSetLoading (b : bool)
| EvSetSearchQuery (q : string)
| EvConsoleError (msg : string)
| EvAlert (title message : string) (buttons : list AlertButton)
    (pressed : option nat)
| EvNavigate (route : string) (params : option AddEditParams).

(** The server and the user: both may answer according to everything that
    happened so far. *)
Record World := {
  respond : list Event → Request → Response + AxiosError;
  press : list Event → list AlertButton → option nat
}.

Definition answer (w : World) (h : list Event) {X} (e : Effect X) : X :=
  match e in Effect X return X with
  | Axios r => respond w h r
  | Alert_alert _ _ bs => press w h bs
  | SetTasks _ | SetLoading _ | SetSearchQuery _
  | ConsoleError _ | Navigate _ _ => tt
  end.

Definition observe {X} (e : Effect X) : X → Event :=
  match e in Effect X return X → Event with
  | Axios r => λ x, EvRequest r x
  | SetTasks ts => λ _, EvSetTasks ts
  | SetLoading b => λ _, EvSetLoading b
  | SetSearchQuery q => λ _, EvSetSearchQuery q
  | ConsoleError m => λ _, EvConsoleError m
  | Alert_alert t m bs => λ x, EvAlert t m bs x
  | Navigate r p => λ _, EvNavigate r p
  end.

(** The state setters of [useState]. *)
Definition update {X} (e : Effect X) (st : State) : State :=
  match e with
  | SetTasks ts =>
      {| tasks := ts; loading := loading st; searchQuery := searchQuery st |}
  | SetLoading b =>
      {| tasks := tasks st; loading := b; searchQuery := searchQuery st |}
  | SetSearchQuery q =>
      {| tasks := tasks st; loading := loading st; searchQuery := q |}
  | _ => st
  end.

(** [run w p st h]: the result, the final state and the log, starting in
    state [st] after the events [h].  Handlers run to completion one after
    the other. *)
Fixpoint run {A} (w : World) (p : Prog A) (st : State) (h : list Event) :
    A * State * list Event :=
  match p with
  | Ret a => (a, st, h)
  | Vis e k =>
      let x := answer w h e in
      run w (k x) (update e st) (h ++ [observe e x])
  end.

(** Every event the program can emit, whatever the answers, satisfies [P]. *)
Fixpoint emits (P : Event → Prop) {A} (p : Prog A) : Prop :=
  match p with
  | Ret _ => True
  | Vis e k => ∀ x, P (observe e x) ∧ emits P (k x)
  end.

Definition requests (log : list Event) : list Request :=
  omap (λ ev, match ev with EvRequest r _ => Some r | _ => None end) log.

Definition setTasksCalls (log : list Event) : list (list Task) :=
  omap (λ ev, match ev with EvSetTasks ts => Some ts | _ => None end) log.

(** ** Endpoints of the task API *)

Inductive Resource := Collection | Item.

Definition Endpoint : Type := Method * Resource.

#[global] Instance Method_eq_dec : EqDecision Method.
Proof. solve_decision. Defined.
#[global] Instance Resource_eq_dec : EqDecision Resource.
Proof. solve_decision. Defined.

(** The endpoint a request addresses: the collection at the base URL, an
    item below it. *)
Definition endpoint_of (r : Request) : option Endpoint :=
  if String.eqb (url r) API_URL then Some (method r, Collection)
  else if JsString.startsWith (url r) (API_URL +:+ "/")
       then Some (method r, Item)
  else None.

(** Modelled from the spec: the four REST endpoints of task CRUD.  The list
    screen reads the collection, updates an item and deletes an item; the
    create endpoint belongs to the add/edit screen, whose source
    (screens/AddEditScreen) is not at hand. *)
Definition task_api_endpoints : list Endpoint :=
  [ (POST, Collection); (GET, Collection); (PUT, Item); (DELETE, Item) ].

(** The endpoints addressed by [fetchTasks], [handleToggleComplete] and
    [handleDelete]. *)
Definition listScreen_endpoints : list Endpoint :=
  [ (GET, Collection); (PUT, Item); (DELETE, Item) ].

Definition callsOneOf (eps : list Endpoint) (ev : Event) : Prop :=
  match ev with
  | EvRequest r _ => ∃ ep, endpoint_of r = Some ep ∧ ep ∈ eps
  | _ => True
  end.

(** ** The navigator (AppNavigator) and the root component (App) *)

Inductive ScreenComponent := HomeScreen | AddEditScreen.

Record Screen := {
  name : string;
  component : ScreenComponent;
  headerShown : bool
}.

Record Navigator := {
  initialRouteName : string;
  screens : list Screen
}.

#[local] Unset Elimination Schemes.
Inductive Element :=
| SafeAreaProvider (children : list Element)
| NavigationContainer (children : list Element)
| Stack_Navigator (nav : Navigator)
| StatusBar (barStyle : string).
#[local] Set Elimination Schemes.

Definition AppNavigator : Element :=
  NavigationContainer
    [ Stack_Navigator
        {| initialRouteName := "home";
           screens :=
             [ {| name := "home"; component := HomeScreen;
                  headerShown := false |};
               {| name := "add_edit"; component := AddEditScreen;
                  headerShown := false |} ] |} ].

Definition App : Element :=
  SafeAreaProvider [ AppNavigator; StatusBar "light" ].

(** The navigation stacks rendered below an element. *)
Fixpoint navigators (el : Element) : list Navigator :=
  match el with
  | SafeAreaProvider children => concat (List.map navigators children)
  | NavigationContainer children => concat (List.map navigators children)
  | Stack_Navigator nav => [nav]
  | StatusBar _ => []
  end.

(** The screen a navigator shows for a route name. *)
Definition route (nav : Navigator) (rn : string) : option ScreenComponent :=
  component <$> List.find (λ s, String.eqb (name s) rn) (screens nav).

(** ** What the claims about the displayed list speak of *)

Section DisplayedList.
Variable toLowerCase : string → string.
Variable Date_getTime : string → option Z.

(** [s] contains [q] when case is ignored: the lower-cased [q] occurs in
    the lower-cased [s]. *)
Definition containsCI (s q : string) : Prop :=
  ∃ a b, toLowerCase s = a +:+ toLowerCase q +:+ b.

(** A task matches the query by its title or, when it has one, by its
    description. *)
Definition matches (q : string) (task : Task) : Prop :=
  containsCI (title task) q ∨
  ∃ d, description task = Some d ∧ containsCI d q.

Definition timestamp (task : Task) : option Z :=
  Date_getTime (createdAt task).

(** [a] may stand before [b]: a completed task is never before an open
    one ... *)
Definition openFirst (a b : Task) : Prop :=
  isCompleted a = true → isCompleted b = true.

(** ... and with equal completion the creation times do not decrease. *)
Definition oldestFirst (a b : Task) : Prop :=
  isCompleted a = isCompleted b →
  ∀ ta tb, timestamp a = Some ta → timestamp b = Some tb → ta ≤ tb.

Definition inOrder (a b : Task) : Prop := openFirst a b ∧ oldestFirst a b.

(** [R] holds from every task of the list to every task after it. *)
Definition precedence (R : relation Task) (d : list Task) : Prop :=
  ∀ l1 a l2 b l3, d = l1 ++ a :: l2 ++ b :: l3 → R a b.

Definition displayedInOrder (d : list Task) : Prop := precedence inOrder d.

(** The creation date of the task is a date. *)
Definition dated (task : Task) : Prop := is_Some (timestamp task).

End DisplayedList.

(** Three open tasks; the second carries a creation date that is no date. *)
Definition undatedTasks : list Task :=
  [ mkTask "1" "water the plants" None false "2024-01-02";
    mkTask "2" "call the bank" None false "soon";
    mkTask "3" "renew passport" None false "2024-01-01" ].

(** Running from a fresh log. *)
Definition exec {A} (w : World) (p : Prog A) (st : State) : A * State * list Event :=
  run w p st [].
Definition stateAfter {A} (r : A * State * list Event) : State := r.1.2.
Definition logOf {A} (r : A * State * list Event) : list Event := r.2.

(** A request is addressed to the base URL or to a task below it. *)
Definition targetsApi (ids : list string) (r : Request) : Prop :=
  url r = API_URL ∨ ∃ i, i ∈ ids ∧ url r = API_URL +:+ "/" +:+ i.

Definition requestsTargetApi (ids : list string) (ev : Event) : Prop :=
  match ev with
  | EvRequest r _ => targetsApi ids r
  | _ => True
  end.

(** The ids of the tasks a session acts on through the API. *)
Definition actedOn (gs : list Gesture) : list string :=
  omap (λ g, match g with
             | PressCheckbox item | PressDelete item => Some (id item)
             | _ => None
             end) gs.

(** Worlds for the examples: a server that always answers with the given
    tasks, one that is down, and a user who presses the given button. *)
Definition serving (ts : list Task) (pressed : option nat) : World :=
  {| respond := λ _ _, inl {| data := ts |};
     press := λ _ _, pressed |}.

Definition offline (pressed : option nat) : World :=
  {| respond := λ _ _, inr NetworkError;
     press := λ _ _, pressed |}.


(** ** What the screen shows (HomeScreen, the returned element) *)

(** A string used as a condition: the empty string is falsy. *)
Definition truthyString (s : string) : bool :=
  match s with
  | EmptyString => false
  | String _ _ => true
  end.

(** The part of the screen below the search bar: the spinner, one of the
    two placeholders (the second one quotes the query), or the list. *)
Inductive Content :=
| ActivityIndicator
| EmptyNoTasks
| EmptyNoMatch (query : string)
| FlatList (items : list Task).

Section Render.
Variable toLowerCase : string → string.
Variable Date_getTime : string → option Z.

Definition content (st : State) : Content :=
  let filtered :=
    filteredTasks toLowerCase Date_getTime (tasks st) (searchQuery st) in
  if loading st then ActivityIndicator
  else if (length filtered =? 0)%nat && (length (tasks st) =? 0)%nat
       then EmptyNoTasks
  else if (length filtered =? 0)%nat && truthyString (searchQuery st)
       then EmptyNoMatch (searchQuery st)
  else FlatList filtered.

End Render.

(** The keys of the rendered rows ([keyExtractor]). *)
Definition keys (c : Content) : list string :=
  match c with
  | FlatList items => id <$> items
  | _ => []
  end.

#[global] Instance Task_eq_dec : EqDecision Task.
Proof. solve_decision. Defined.

(** The gestures the rendered screen offers: the rows and their touchables
    exist only for the items of the list; focus, the floating button and
    the search box are always there. *)
Definition offers (c : Content) (g : Gesture) : bool :=
  match g with
  | Focus | PressFAB | ChangeSearchText _ => true
  | PressCheckbox item | PressEdit item | PressDelete item =>
      match c with
      | FlatList items => bool_decide (item ∈ items)
      | _ => false
      end
  end.

(** The states and logs the user can bring about from the first render. *)
Inductive reachable (toLowerCase : string → string)
    (Date_getTime : string → option Z) (w : World) :
    State → list Event → Prop :=
| reachable_init : reachable toLowerCase Date_getTime w initialState []
| reachable_step st h g :
    reachable toLowerCase Date_getTime w st h →
    offers (content toLowerCase Date_getTime st) g = true →
    reachable toLowerCase Date_getTime w
      (stateAfter (run w (onGesture g) st h))
      (logOf (run w (onGesture g) st h)).

(** ** Reading a log *)

(** The collections returned by the successful GET requests. *)
Definition fetchedLists (log : list Event) : list (list Task) :=
  omap (λ ev, match ev with
              | EvRequest r (inl resp) =>
                  match method r with GET => Some (data resp) | _ => None end
              | _ => None
              end) log.

(** The requests that were rejected. *)
Definition failures (log : list Event) : list Request :=
  omap (λ ev, match ev with EvRequest r (inr _) => Some r | _ => None end) log.

(** The alerts shown, by title and message. *)
Definition alertsShown (log : list Event) : list (string * string) :=
  omap (λ ev, match ev with EvAlert t m _ _ => Some (t, m) | _ => None end) log.

(** The error alerts: those titled "Hata". *)
Definition errorAlerts (log : list Event) : list (string * string) :=
  List.filter (λ a, String.eqb a.1 "Hata") (alertsShown log).

Definition typedTexts (log : list Event) : list string :=
  omap (λ ev, match ev with EvSetSearchQuery q => Some q | _ => None end) log.

Definition navigations (log : list Event) :
    list (string * option AddEditParams) :=
  omap (λ ev, match ev with EvNavigate r p => Some (r, p) | _ => None end) log.

(** What a gesture types into the search box and where it navigates. *)
Definition typedBy (g : Gesture) : option string :=
  match g with
  | ChangeSearchText text => Some text
  | _ => None
  end.

Definition navigationOf (g : Gesture) : option (string * option AddEditParams) :=
  match g with
  | PressEdit item => Some ("add_edit", Some {| taskId := Some (id item) |})
  | PressFAB => Some ("add_edit", None)
  | _ => None
  end.

(** Gestures that stay on the device: typing and navigating. *)
Definition local (g : Gesture) : bool :=
  match g with
  | ChangeSearchText _ | PressEdit _ | PressFAB => true
  | Focus | PressCheckbox _ | PressDelete _ => false
  end.

(** The world as it looks after the events [h]. *)
Definition shiftWorld (h : list Event) (w : World) : World :=
  {| respond := λ h', respond w (h ++ h');
     press := λ h', press w (h ++ h') |}.

(** Two tasks of equal completion and equal creation time are the same
    task: no ties for the comparator to leave in fetched order. *)
Definition distinctKeys (Date_getTime : string → option Z)
    (ts : list Task) : Prop :=
  ∀ a b, a ∈ ts → b ∈ ts →
    isCompleted a = isCompleted b →
    Date_getTime (createdAt a) = Date_getTime (createdAt b) → a = b.

(** * Properties *)

(** ** Strings *)

Lemma startsWith_spec (s p : string) :
  JsString.startsWith s p = true ↔ ∃ b, s = p +:+ b.
Proof.
  revert s. induction p as [|c p IH]; intros s.
  - split; [intros _; by exists s | by destruct s].
  - destruct s as [|d s]; cbn.
    + split; [done | intros [b Hb]; discriminate].
    + rewrite andb_true_iff, Ascii.eqb_eq, IH. split.
      * intros [-> [b ->]]. by exists b.
      * intros [b Hb]. inversion Hb. split; [done|]. by exists b.
Qed.

Lemma includes_spec (s q : string) :
  JsString.includes s q = true ↔ ∃ a b, s = a +:+ q +:+ b.
Proof.
  induction s as [|c s IH]; cbn [JsString.includes];
    rewrite orb_true_iff, startsWith_spec.
  - split.
    + intros [[b Hb]|]; [|done]. by exists "", b.
    + intros (a & b & Hab). left. destruct a; cbn in Hab; [by exists b | done].
  - rewrite IH. split.
    + intros [[b Hb]|(a & b & Hab)].
      * by exists "", b.
      * exists (String c a), b. cbn. by rewrite Hab.
    + intros (a & b & Hab). destruct a as [|c' a]; cbn in Hab.
      * left. by exists b.
      * right. exists a, b. by inversion Hab.
Qed.

(** ** The model at work *)

Example isoDateTime_epoch : JsDate.isoDateTime "1970-01-02" = Some 86400000.
Proof. reflexivity. Qed.

Example isoDateTime_2024 : JsDate.isoDateTime "2024-03-01" = Some 1709251200000.
Proof. reflexivity. Qed.

Example isoDateTime_no_date : JsDate.isoDateTime "soon" = None.
Proof. reflexivity. Qed.

Example filteredTasks_run :
  filteredTasks JsString.asciiLower JsDate.isoDateTime
    [ mkTask "1" "Buy Milk" None true "2024-01-01";
      mkTask "2" "call bob" (Some "about the MILK run") false "2024-01-03";
      mkTask "3" "Walk" None false "2024-01-02";
      mkTask "4" "milkshake" None false "2024-01-02" ] "milk"
  = [ mkTask "4" "milkshake" None false "2024-01-02";
      mkTask "2" "call bob" (Some "about the MILK run") false "2024-01-03";
      mkTask "1" "Buy Milk" None true "2024-01-01" ].
Proof. reflexivity. Qed.

Example delete_cancelled :
  exec (serving [] (Some 0%nat))
    (onGesture (PressDelete (mkTask "7" "renew passport" None false "2024-01-01")))
    initialState
  = (tt, initialState,
     [ EvAlert "Görevi Sil" "Bu görevi silmek istediğinizden emin misiniz?"
         [ {| text := "İptal"; style := StyleCancel |};
           {| text := "Sil"; style := StyleDestructive |} ] (Some 0%nat) ]).
Proof. reflexivity. Qed.

Example delete_confirmed_requests :
  requests (logOf (exec (serving [] (Some 1%nat))
    (onGesture (PressDelete (mkTask "7" "renew passport" None false "2024-01-01")))
    initialState))
  = [ axios_delete "http://10.0.2.2:3000/api/tasks/7";
      axios_get "http://10.0.2.2:3000/api/tasks" ].
Proof. reflexivity. Qed.

Example toggle_failed :
  exec (offline None)
    (onGesture (PressCheckbox (mkTask "7" "renew passport" None false "2024-01-01")))
    initialState
  = (tt, initialState,
     [ EvRequest (axios_put "http://10.0.2.2:3000/api/tasks/7"
                    {| is_completed := true |}) (inr NetworkError);
       EvAlert "Hata" "Görevin durumunu güncellerken hata oluştu." [] None ]).
Proof. reflexivity. Qed.

(** ** The built-in sort *)

Section ArraySortFacts.
Context {A : Type} (comparefn : A → A → option Z).

Lemma sort_insert_Permutation (x : A) (l : list A) :
  sort_insert comparefn x l ≡ₚ x :: l.
Proof.
  induction l as [|y l IH]; simpl; [done|].
  case_match; [|done]. rewrite IH. apply Permutation_swap.
Qed.

Lemma Array_sort_Permutation (l : list A) : Array_sort comparefn l ≡ₚ l.
Proof.
  induction l as [|x l IH]; simpl; [done|].
  by rewrite sort_insert_Permutation, IH.
Qed.

Lemma Array_sort_elem_of (x : A) (l : list A) :
  x ∈ Array_sort comparefn l ↔ x ∈ l.
Proof. by rewrite Array_sort_Permutation. Qed.

(** A list in which no element is put strictly after its successor comes
    back as it is: the sort never moves an element without the comparator
    asking for it. *)
Lemma Array_sort_keeps_sorted (l : list A) :
  Sorted (λ x y, sortCompare comparefn x y ≤ 0) l → Array_sort comparefn l = l.
Proof.
  induction 1 as [|x l Hs IH Hhd]; [done|].
  simpl. rewrite IH. destruct Hhd as [|y l' Hxy]; [done|].
  simpl. by rewrite (proj2 (Z.ltb_ge _ _) Hxy).
Qed.

(** The result is ordered by every relation [R] that agrees with the
    comparator and is transitive, on the elements singled out by [ok]. *)
Variable ok : A → Prop.
Variable R : relation A.

Hypothesis R_trans : ∀ x y z, ok x → ok y → ok z → R x y → R y z → R x z.
Hypothesis R_after : ∀ x y, ok x → ok y → 0 < sortCompare comparefn x y → R y x.
Hypothesis R_before : ∀ x y, ok x → ok y → sortCompare comparefn x y ≤ 0 → R x y.

Lemma sort_insert_sorted (x : A) (l : list A) :
  ok x → Forall ok l →
  StronglySorted R l → StronglySorted R (sort_insert comparefn x l).
Proof.
  intros Hx Hl Hs. induction Hs as [|y l Hs IH Hy]; simpl.
  - repeat constructor.
  - apply Forall_cons in Hl as [Hoy Hl].
    destruct (0 <? sortCompare comparefn x y) eqn:Hc.
    + apply Z.ltb_lt in Hc. constructor; [by apply IH|].
      rewrite sort_insert_Permutation. constructor; [|done].
      by apply R_after.
    + apply Z.ltb_ge in Hc. constructor; [by constructor|].
      assert (R x y) as Hxy by by apply R_before.
      constructor; [done|].
      apply Forall_forall. intros z Hz.
      rewrite Forall_forall in Hy, Hl.
      apply (R_trans x y z); auto.
Qed.

Lemma Array_sort_sorted (l : list A) :
  Forall ok l → StronglySorted R (Array_sort comparefn l).
Proof.
  induction l as [|x l IH]; simpl; intros Hl; [constructor|].
  apply Forall_cons in Hl as [Hx Hl].
  apply sort_insert_sorted; [done| |by apply IH].
  by rewrite Array_sort_Permutation.
Qed.

End ArraySortFacts.

(** ** The displayed list *)

Section FilteredTasksFacts.
Variable toLowerCase : string → string.
Variable Date_getTime : string → option Z.

Lemma matchesQuery_truthy (q : string) (task : Task) :
  truthy (matchesQuery toLowerCase q task) = true ↔ matches toLowerCase q task.
Proof.
  unfold matchesQuery, matches, containsCI, jsOr.
  destruct (JsString.includes (toLowerCase (title task)) (toLowerCase q)) eqn:Ht.
  - apply includes_spec in Ht. simpl. tauto.
  - assert (¬ ∃ a b, toLowerCase (title task) = a +:+ toLowerCase q +:+ b) as Hn.
    { rewrite <- includes_spec. congruence. }
    destruct (description task) as [d|]; simpl.
    + rewrite includes_spec. split.
      * intros H. right. by exists d.
      * intros [?|(d' & Hd & H)]; [done|]. by inversion Hd.
    + split; [done|]. intros [?|(d' & Hd & _)]; done.
Qed.

Lemma filteredTasks_elem_of (tasks : list Task) (q : string) (task : Task) :
  task ∈ filteredTasks toLowerCase Date_getTime tasks q ↔
  task ∈ tasks ∧ matches toLowerCase q task.
Proof.
  unfold filteredTasks. rewrite Array_sort_elem_of.
  rewrite !list_elem_of_In, filter_In, matchesQuery_truthy. done.
Qed.

Lemma filter_sublist {A} (f : A → bool) (l : list A) :
  List.filter f l `sublist_of` l.
Proof.
  induction l as [|x l IH]; simpl; [constructor|].
  destruct (f x); by constructor.
Qed.

(** The comparator orders the tasks whose creation date is a date. *)
Lemma inOrder_trans (a b c : Task) :
  dated Date_getTime a → dated Date_getTime b → dated Date_getTime c →
  inOrder Date_getTime a b → inOrder Date_getTime b c →
  inOrder Date_getTime a c.
Proof.
  intros [ta Ha] [tb Hb] [tc Hc] [Hab1 Hab2] [Hbc1 Hbc2].
  unfold inOrder, openFirst, oldestFirst in *. split; [auto|].
  intros Hac ta' tc' Ha' Hc'. rewrite Ha in Ha'. rewrite Hc in Hc'.
  injection Ha' as <-. injection Hc' as <-.
  destruct (isCompleted a), (isCompleted b), (isCompleted c);
    try discriminate;
    try (specialize (Hab1 eq_refl); discriminate);
    try (specialize (Hbc1 eq_refl); discriminate);
    specialize (Hab2 eq_refl ta tb Ha Hb);
    specialize (Hbc2 eq_refl tb tc Hb Hc); lia.
Qed.

Lemma compareTasks_after (a b : Task) :
  dated Date_getTime a → dated Date_getTime b →
  0 < sortCompare (compareTasks Date_getTime) a b → inOrder Date_getTime b a.
Proof.
  intros [ta Ha] [tb Hb].
  unfold sortCompare, compareTasks, inOrder, openFirst, oldestFirst, timestamp in *.
  rewrite Ha, Hb.
  destruct (isCompleted a), (isCompleted b); simpl; intros H; split;
    try done; try lia; intros _ ? ? [= <-] [= <-]; lia.
Qed.

Lemma compareTasks_before (a b : Task) :
  sortCompare (compareTasks Date_getTime) a b ≤ 0 → inOrder Date_getTime a b.
Proof.
  unfold sortCompare, compareTasks, inOrder, openFirst, oldestFirst, timestamp.
  destruct (isCompleted a), (isCompleted b); simpl; intros H; split;
    try done; try lia; intros _ ta tb Ha Hb; rewrite Ha, Hb in H; lia.
Qed.

(** Whatever the dates, the comparator never puts a completed task before
    an open one. *)
Lemma compareTasks_after_openFirst (a b : Task) :
  0 < sortCompare (compareTasks Date_getTime) a b → openFirst b a.
Proof.
  unfold sortCompare, compareTasks, openFirst.
  destruct (isCompleted a), (isCompleted b); simpl; try done; lia.
Qed.

Lemma StronglySorted_precedence (R : relation Task) (d : list Task) :
  StronglySorted R d → precedence R d.
Proof.
  intros Hs l1 a l2 b l3 ->.
  apply StronglySorted_app_1_r, StronglySorted_cons in Hs as [Hs _].
  rewrite Forall_forall in Hs. apply Hs.
  apply elem_of_app. right. apply elem_of_cons. by left.
Qed.

End FilteredTasksFacts.

(** C2: a task is in the displayed list exactly when it is a fetched task
    whose title contains the query with case ignored, or which has a
    description that does; with the empty query every fetched task is
    displayed. *)
Theorem filteredTasks_membership
    (toLowerCase : string → string) (Date_getTime : string → option Z)
    (toLowerCase_empty : toLowerCase "" = "")
    (tasks : list Task) (searchQuery : string) (task : Task) :
  (task ∈ filteredTasks toLowerCase Date_getTime tasks searchQuery ↔
   task ∈ tasks ∧
   (containsCI toLowerCase (title task) searchQuery ∨
    ∃ d, description task = Some d ∧ containsCI toLowerCase d searchQuery)) ∧
  (task ∈ tasks → task ∈ filteredTasks toLowerCase Date_getTime tasks "").
Proof.
  split; [apply filteredTasks_elem_of|].
  intros Hin. apply filteredTasks_elem_of. split; [done|].
  left. unfold containsCI. rewrite toLowerCase_empty.
  by exists "", (toLowerCase (title task)).
Qed.

Lemma filteredTasks_membership_witness :
  let task := mkTask "4" "Milkshake" None false "2024-01-02" in
  let tasks := [ mkTask "3" "Walk" None false "2024-01-02"; task ] in
  (task ∈ filteredTasks JsString.asciiLower JsDate.isoDateTime tasks "milk" ↔
   task ∈ tasks ∧
   (containsCI JsString.asciiLower (title task) "milk" ∨
    ∃ d, description task = Some d ∧ containsCI JsString.asciiLower d "milk")) ∧
  (task ∈ tasks → task ∈ filteredTasks JsString.asciiLower JsDate.isoDateTime tasks "").
Proof.
  exact (filteredTasks_membership JsString.asciiLower JsDate.isoDateTime eq_refl
           [ mkTask "3" "Walk" None false "2024-01-02";
             mkTask "4" "Milkshake" None false "2024-01-02" ]
           "milk" (mkTask "4" "Milkshake" None false "2024-01-02")).
Defined.

(** C7: the displayed list is a rearrangement of a sublist of the fetched
    tasks: filtering and sorting add no task, repeat none and change none. *)
Theorem filteredTasks_presentational
    (toLowerCase : string → string) (Date_getTime : string → option Z)
    (tasks : list Task) (searchQuery : string) :
  ∃ kept,
    kept `sublist_of` tasks ∧
    filteredTasks toLowerCase Date_getTime tasks searchQuery ≡ₚ kept.
Proof.
  exists (List.filter (λ task, truthy (matchesQuery toLowerCase searchQuery task)) tasks).
  split; [apply filter_sublist | apply Array_sort_Permutation].
Qed.

(** C3, as amended: open tasks stand before completed ones; and when the
    creation date of every displayed task is a date, tasks of equal
    completion stand in ascending order of their creation time. *)
Theorem filteredTasks_ordered
    (toLowerCase : string → string) (Date_getTime : string → option Z)
    (tasks : list Task) (searchQuery : string) :
  let displayed := filteredTasks toLowerCase Date_getTime tasks searchQuery in
  precedence openFirst displayed ∧
  ((∀ task, task ∈ displayed → is_Some (Date_getTime (createdAt task))) →
   displayedInOrder Date_getTime displayed).
Proof.
  unfold filteredTasks. split.
  - apply StronglySorted_precedence.
    apply (Array_sort_sorted _ (λ _, True)).
    + unfold openFirst. auto.
    + intros x y _ _. apply compareTasks_after_openFirst.
    + intros x y _ _ H. by apply compareTasks_before in H as [H _].
    + by apply Forall_forall.
  - intros Hdated. apply StronglySorted_precedence.
    apply (Array_sort_sorted _ (dated Date_getTime)).
    + apply inOrder_trans.
    + apply compareTasks_after.
    + intros x y _ _. apply compareTasks_before.
    + apply Forall_forall. intros t Ht. apply Hdated.
      by apply Array_sort_elem_of.
Qed.

Lemma filteredTasks_ordered_witness :
  displayedInOrder JsDate.isoDateTime
    (filteredTasks JsString.asciiLower JsDate.isoDateTime
       [ mkTask "1" "Buy Milk" None true "2024-01-01";
         mkTask "2" "call bob" (Some "about the MILK run") false "2024-01-03";
         mkTask "3" "Walk" None false "2024-01-02";
         mkTask "4" "milkshake" None false "2024-01-02" ] "milk").
Proof.
  apply filteredTasks_ordered.
  intros task Ht. vm_compute in Ht.
  repeat (apply elem_of_cons in Ht as [->|Ht]; [by eexists|]).
  by apply elem_of_nil in Ht.
Defined.

(** C3, as stated, fails: a creation date that is no date makes the
    comparator answer NaN, and tasks around it keep their fetched order even
    when their creation times decrease. *)
Lemma filteredTasks_ordered_counterexample :
  filteredTasks JsString.asciiLower JsDate.isoDateTime undatedTasks ""
    = undatedTasks ∧
  ¬ displayedInOrder JsDate.isoDateTime
      (filteredTasks JsString.asciiLower JsDate.isoDateTime undatedTasks "").
Proof.
  split; [reflexivity|].
  intros H.
  destruct (H [] (mkTask "1" "water the plants" None false "2024-01-02")
              [mkTask "2" "call the bank" None false "soon"]
              (mkTask "3" "renew passport" None false "2024-01-01") []
              eq_refl) as [_ Ht].
  specialize (Ht eq_refl 1704153600000 1704067200000 eq_refl eq_refl).
  lia.
Qed.

(** ** Programs and their runs *)

Lemma emits_bind {A B} (P : Event → Prop) (p : Prog A) (f : A → Prog B) :
  emits P p → (∀ a, emits P (f a)) → emits P (p ≫= f).
Proof.
  intros Hp Hf. induction p as [a|X e k IH]; simpl in *; [apply Hf|].
  intros x. destruct (Hp x) as [He Hk]. split; [done|]. by apply IH.
Qed.

Lemma emits_mono {A} (P Q : Event → Prop) (p : Prog A) :
  (∀ ev, P ev → Q ev) → emits P p → emits Q p.
Proof.
  intros HPQ. induction p as [a|X e k IH]; simpl; [done|].
  intros Hp x. destruct (Hp x) as [He Hk]. split; [by apply HPQ | by apply IH].
Qed.

Lemma run_emits {A} (P : Event → Prop) (w : World) (p : Prog A)
    (st : State) (h : list Event) :
  emits P p → Forall P h → Forall P (run w p st h).2.
Proof.
  revert st h. induction p as [a|X e k IH]; simpl; intros st h Hp Hh; [done|].
  destruct (Hp (answer w h e)) as [He Hk].
  apply IH; [done|]. apply Forall_app. split; [done|]. by constructor.
Qed.

Lemma exec_emits {A} (P : Event → Prop) (w : World) (p : Prog A) (st : State) :
  emits P p → Forall P (logOf (exec w p st)).
Proof. intros Hp. by apply run_emits. Qed.

(** ** Where the requests go *)

Lemma endpoint_of_collection (m : Method) (b : option Body) :
  endpoint_of {| method := m; url := API_URL; body := b |} = Some (m, Collection).
Proof. reflexivity. Qed.

Lemma endpoint_of_item (m : Method) (i : string) (b : option Body) :
  endpoint_of {| method := m; url := API_URL +:+ "/" +:+ i; body := b |}
    = Some (m, Item).
Proof. reflexivity. Qed.

(** Walks through the effects of a handler, answer by answer; [tac] settles
    what is asked of each event. *)
Ltac walk tac :=
  simpl;
  repeat match goal with
  | |- ∀ _ : unit, _ => intros []
  | |- ∀ _ : Response + AxiosError, _ => intros [?|?]; simpl
  | |- ∀ _ : option nat, _ => intros [[|[|?]]|]; simpl
  | |- _ ∧ _ => split; [tac|]
  | |- True => exact I
  end.

Lemma onGesture_requestsTargetApi (g : Gesture) (ids : list string) :
  actedOn [g] ⊆ ids → emits (requestsTargetApi ids) (onGesture g).
Proof.
  intros Hids.
  destruct g as [|item|item|item| |q]; walk ltac:(first [exact I | by left | idtac]);
    right; exists (id item); (split; [|done]); apply Hids; simpl; by left.
Qed.

Lemma actedOn_cons (g : Gesture) (gs : list Gesture) :
  actedOn (g :: gs) = actedOn [g] ++ actedOn gs.
Proof. unfold actedOn. simpl. by destruct g. Qed.

Lemma requestsTargetApi_mono (ids ids' : list string) (ev : Event) :
  ids ⊆ ids' → requestsTargetApi ids ev → requestsTargetApi ids' ev.
Proof.
  intros Hsub. destruct ev; simpl; try done.
  intros [?|(i & Hi & ?)]; [by left|]. right. exists i. split; [by apply Hsub|done].
Qed.

Lemma session_requestsTargetApi (gs : list Gesture) :
  emits (requestsTargetApi (actedOn gs)) (session gs).
Proof.
  induction gs as [|g gs IH]; [done|].
  cbn [session]. rewrite actedOn_cons. apply emits_bind.
  - apply onGesture_requestsTargetApi. intros i Hi. apply elem_of_app. by left.
  - intros []. eapply emits_mono; [|exact IH].
    intros ev. apply requestsTargetApi_mono. intros i Hi. apply elem_of_app. by right.
Qed.

Lemma onGesture_callsOneOf (g : Gesture) :
  emits (callsOneOf listScreen_endpoints) (onGesture g).
Proof.
  destruct g as [|item|item|item| |q];
    walk ltac:(first [exact I | eexists; split; [reflexivity|]; unfold listScreen_endpoints;
                                repeat first [apply list_elem_of_here | apply list_elem_of_further]]).
Qed.

Lemma session_callsOneOf (gs : list Gesture) :
  emits (callsOneOf listScreen_endpoints) (session gs).
Proof.
  induction gs as [|g gs IH]; [done|].
  cbn [session]. apply emits_bind; [apply onGesture_callsOneOf|by intros []].
Qed.

Lemma elem_of_requests (r : Request) (log : list Event) :
  r ∈ requests log → ∃ res, EvRequest r res ∈ log.
Proof.
  unfold requests. rewrite list_elem_of_omap. intros (ev & Hev & Hr).
  destruct ev; try done. inversion Hr; subst. by eexists.
Qed.

(** C5: every request of a session on the list screen goes to the base URL
    or to the base URL followed by a slash and the id of a task the user
    acted on. *)
Theorem requests_target_single_api
    (w : World) (gs : list Gesture) (st : State) (r : Request) :
  API_URL = "http://10.0.2.2:3000/api/tasks" ∧
  (r ∈ requests (logOf (exec w (session gs) st)) →
   url r = API_URL ∨ ∃ i, i ∈ actedOn gs ∧ url r = API_URL +:+ "/" +:+ i).
Proof.
  split; [done|]. intros Hr.
  apply elem_of_requests in Hr as [res Hr].
  pose proof (exec_emits _ w _ st (session_requestsTargetApi gs)) as Hall.
  rewrite Forall_forall in Hall. exact (Hall _ Hr).
Qed.

Lemma requests_target_single_api_witness :
  let item := mkTask "7" "renew passport" None false "2024-01-01" in
  let r := axios_delete "http://10.0.2.2:3000/api/tasks/7" in
  r ∈ requests (logOf (exec (serving [item] (Some 1%nat))
                         (session [Focus; PressDelete item]) initialState)) ∧
  (url r = API_URL ∨
   ∃ i, i ∈ actedOn [Focus; PressDelete item] ∧ url r = API_URL +:+ "/" +:+ i).
Proof.
  assert (axios_delete "http://10.0.2.2:3000/api/tasks/7"
            ∈ requests (logOf (exec
                (serving [mkTask "7" "renew passport" None false "2024-01-01"]
                   (Some 1%nat))
                (session [Focus;
                          PressDelete
                            (mkTask "7" "renew passport" None false "2024-01-01")])
                initialState))) as Hin.
  { vm_compute. apply list_elem_of_further, list_elem_of_here. }
  split; [exact Hin|].
  exact (proj2 (requests_target_single_api _ _ _ _) Hin).
Defined.

(** C1: the task API has four distinct endpoints, and every request of a
    session on the list screen addresses one of those the screen's handlers
    call, each of which is one of the four. *)
Theorem requests_call_the_four_endpoints
    (w : World) (gs : list Gesture) (st : State) (r : Request) :
  NoDup task_api_endpoints ∧ length task_api_endpoints = 4%nat ∧
  listScreen_endpoints ⊆ task_api_endpoints ∧
  (r ∈ requests (logOf (exec w (session gs) st)) →
   ∃ ep, endpoint_of r = Some ep ∧ ep ∈ listScreen_endpoints ∧
         ep ∈ task_api_endpoints).
Proof.
  assert (listScreen_endpoints ⊆ task_api_endpoints) as Hsub.
  { intros ep Hep. unfold listScreen_endpoints, task_api_endpoints in *.
    repeat (apply elem_of_cons in Hep as [->|Hep];
            [repeat first [apply list_elem_of_here | apply list_elem_of_further]|]).
    by apply elem_of_nil in Hep. }
  split; [|split; [done|split; [done|]]].
  - unfold task_api_endpoints.
    repeat (apply NoDup_cons; split;
            [rewrite ?elem_of_cons, elem_of_nil; intuition congruence|]).
    apply NoDup_nil_2.
  - intros Hr. apply elem_of_requests in Hr as [res Hr].
    pose proof (exec_emits _ w _ st (session_callsOneOf gs)) as Hall.
    rewrite Forall_forall in Hall. destruct (Hall _ Hr) as (ep & Hep & Hin).
    exists ep. auto.
Qed.

Lemma requests_call_the_four_endpoints_witness :
  let item := mkTask "7" "renew passport" None false "2024-01-01" in
  let r := axios_put "http://10.0.2.2:3000/api/tasks/7" {| is_completed := true |} in
  r ∈ requests (logOf (exec (serving [item] None)
                         (session [PressCheckbox item]) initialState)) ∧
  ∃ ep, endpoint_of r = Some ep ∧ ep ∈ listScreen_endpoints ∧
        ep ∈ task_api_endpoints.
Proof.
  assert (axios_put "http://10.0.2.2:3000/api/tasks/7" {| is_completed := true |}
            ∈ requests (logOf (exec
                (serving [mkTask "7" "renew passport" None false "2024-01-01"] None)
                (session [PressCheckbox
                            (mkTask "7" "renew passport" None false "2024-01-01")])
                initialState))) as Hin.
  { vm_compute. apply list_elem_of_here. }
  split; [exact Hin|].
  exact (proj2 (proj2 (proj2 (requests_call_the_four_endpoints _ _ _ _))) Hin).
Defined.

(** ** The handlers, outcome by outcome *)

(** Splits a membership in a concrete log into its cases. *)
Ltac in_log H :=
  repeat (apply elem_of_cons in H as [H|H];
          [first [discriminate H | inversion H; subst; clear H]|]);
  try (by apply elem_of_nil in H).

(** C8: [fetchTasks] always ends by resetting the loading flag; when its
    GET fails it sets no tasks, leaves the task state as it was, logs the
    error and shows one alert. *)
Theorem fetchTasks_outcomes (w : World) (st : State) (h : list Event) :
  let r := run w fetchTasks st h in
  ∃ new,
    logOf r = h ++ new ∧
    loading (stateAfter r) = false ∧
    last new = Some (EvSetLoading false) ∧
    ∀ err, EvRequest (axios_get API_URL) (inr err) ∈ new →
      tasks (stateAfter r) = tasks st ∧
      setTasksCalls new = [] ∧
      ∃ pressed,
        new = [ EvSetLoading true;
                EvRequest (axios_get API_URL) (inr err);
                EvConsoleError "Fetch error:";
                EvAlert "Hata"
                  "Görevler yüklenirken bir sorun oluştu. Backend çalışıyor mu?"
                  [] pressed;
                EvSetLoading false ].
Proof.
  unfold fetchTasks, logOf, stateAfter. cbn.
  destruct (respond w (h ++ [EvSetLoading true]) (axios_get API_URL))
    as [resp|err] eqn:Hres; cbn; rewrite <- !app_assoc; cbn;
    eexists; (split; [reflexivity|]); (split; [done|]); (split; [done|]);
    intros err' Hin; in_log Hin.
  split; [done|]. split; [done|]. by eexists.
Qed.

Lemma fetchTasks_outcomes_witness :
  let r := run (offline None) fetchTasks
             {| tasks := undatedTasks; loading := false; searchQuery := "" |} [] in
  logOf r =
    [ EvSetLoading true;
      EvRequest (axios_get API_URL) (inr NetworkError);
      EvConsoleError "Fetch error:";
      EvAlert "Hata"
        "Görevler yüklenirken bir sorun oluştu. Backend çalışıyor mu?" [] None;
      EvSetLoading false ] ∧
  tasks (stateAfter r) = undatedTasks ∧
  loading (stateAfter r) = false.
Proof.
  destruct (fetchTasks_outcomes (offline None)
              {| tasks := undatedTasks; loading := false; searchQuery := "" |} [])
    as (new & Hlog & Hloading & _ & Hfail).
  split; [reflexivity|]. split; [|exact Hloading].
  apply (Hfail NetworkError). vm_compute in Hlog. subst new.
  apply list_elem_of_further, list_elem_of_here.
Defined.

(** C6: focusing the screen issues one GET of the collection, and a
    successful answer becomes the task state; pressing a task's checkbox
    first issues a PUT to that task's URL with the completion flag negated;
    confirming the delete dialog issues a DELETE to that task's URL; after a
    successful PUT or DELETE the collection is fetched again. *)
Theorem list_backed_by_api (w : World) (st : State) (item : Task) :
  let get := axios_get API_URL in
  let put := axios_put (API_URL +:+ "/" +:+ id item)
               {| is_completed := negb (isCompleted item) |} in
  let del := axios_delete (API_URL +:+ "/" +:+ id item) in
  let fetched (r : unit * State * list Event) : Prop :=
    ∀ resp, EvRequest get (inl resp) ∈ logOf r →
            tasks (stateAfter r) = data resp in
  (let r := exec w (onGesture Focus) st in
   requests (logOf r) = [get] ∧ fetched r) ∧
  (let r := exec w (onGesture (PressCheckbox item)) st in
   ∃ res,
     head (logOf r) = Some (EvRequest put res) ∧
     (is_Some (maybe inl res) → requests (logOf r) = [put; get] ∧ fetched r)) ∧
  (let r := exec w (onGesture (PressDelete item)) st in
   ∃ pressed,
     head (logOf r) =
       Some (EvAlert "Görevi Sil" "Bu görevi silmek istediğinizden emin misiniz?"
               [ {| text := "İptal"; style := StyleCancel |};
                 {| text := "Sil"; style := StyleDestructive |} ] pressed) ∧
     (pressed = Some 1%nat →
      ∃ res,
        logOf r !! 1%nat = Some (EvRequest del res) ∧
        (is_Some (maybe inl res) →
         requests (logOf r) = [del; get] ∧ fetched r))).
Proof.
  unfold exec, logOf, stateAfter. split; [|split]; cbn.
  - destruct (respond w _ _) as [resp|err]; cbn;
      (split; [done|]); intros resp' Hin; in_log Hin. done.
  - destruct (respond w [] _) as [resp|err]; cbn.
    + destruct (respond w _ _) as [resp'|err]; cbn;
        (eexists; split; [reflexivity|]); intros _;
        (split; [done|]); intros resp'' Hin; in_log Hin. done.
    + eexists. split; [reflexivity|]. by intros [? ?].
  - destruct (press w [] _) as [[|[|n]]|]; cbn;
      try (eexists; split; [reflexivity|]; discriminate).
    destruct (respond w _ _) as [resp|err]; cbn.
    + destruct (respond w _ _) as [resp'|err]; cbn;
        (eexists; split; [reflexivity|]); intros _;
        (eexists; split; [reflexivity|]); intros _;
        (split; [done|]); intros resp'' Hin; in_log Hin. done.
    + eexists. split; [reflexivity|]. intros _.
      eexists. split; [reflexivity|]. by intros [? ?].
Qed.

Lemma list_backed_by_api_witness :
  let item := mkTask "7" "renew passport" None false "2024-01-01" in
  let done := mkTask "7" "renew passport" None true "2024-01-01" in
  let r := exec (serving [done] (Some 1%nat)) (onGesture (PressCheckbox item))
             initialState in
  requests (logOf r) =
    [ axios_put "http://10.0.2.2:3000/api/tasks/7" {| is_completed := true |};
      axios_get "http://10.0.2.2:3000/api/tasks" ] ∧
  tasks (stateAfter r) = [done].
Proof.
  destruct (list_backed_by_api (serving
              [mkTask "7" "renew passport" None true "2024-01-01"] (Some 1%nat))
              initialState (mkTask "7" "renew passport" None false "2024-01-01"))
    as (_ & (res & Hhead & Hput) & _).
  vm_compute in Hhead. injection Hhead as Hres. subst res.
  destruct Hput as [Hreqs Hfetched]; [by eexists|].
  split; [exact Hreqs|].
  apply (Hfetched {| data := [mkTask "7" "renew passport" None true "2024-01-01"] |}).
  vm_compute. do 2 apply list_elem_of_further. apply list_elem_of_here.
Defined.

(** C9: pressing edit on a task navigates to [add_edit] with that task's id
    as [taskId]; pressing the add button navigates to [add_edit] without
    parameters.  Neither does anything else. *)
Theorem navigation_from_list (w : World) (st : State) (item : Task) :
  exec w (onGesture (PressEdit item)) st =
    (tt, st, [EvNavigate "add_edit" (Some {| taskId := Some (id item) |})]) ∧
  exec w (onGesture PressFAB) st = (tt, st, [EvNavigate "add_edit" None]) ∧
  ∀ nav, nav ∈ navigators App → route nav "add_edit" = Some AddEditScreen.
Proof.
  split; [done|]. split; [done|].
  intros nav Hnav. cbn in Hnav. by apply list_elem_of_singleton in Hnav as ->.
Qed.

(** C4: the application renders one navigation stack; it registers two
    screens, the list view under [home] and the add/edit view under
    [add_edit], and starts on [home]. *)
Theorem two_screens_one_stack :
  ∃ nav,
    navigators App = [nav] ∧
    (λ s, (name s, component s)) <$> screens nav =
      [ ("home", HomeScreen); ("add_edit", AddEditScreen) ] ∧
    initialRouteName nav = "home" ∧
    route nav (initialRouteName nav) = Some HomeScreen.
Proof. eexists. split; [reflexivity|]. done. Qed.

(** * Further properties of the list screen *)

(** ** The displayed list, continued *)

Lemma string_app_assoc (a b c : string) : (a +:+ b) +:+ c = a +:+ b +:+ c.
Proof.
  induction a as [|x a IH]; [done|].
  change (String x ((a +:+ b) +:+ c) = String x (a +:+ b +:+ c)).
  by rewrite IH.
Qed.

Lemma filter_Permutation {A} (f : A → bool) (l l' : list A) :
  l ≡ₚ l' → List.filter f l ≡ₚ List.filter f l'.
Proof.
  induction 1 as [|x l l' _ IH|x y l|l l' l'' _ IH1 _ IH2]; simpl.
  - done.
  - destruct (f x); by rewrite IH.
  - destruct (f x), (f y); try done. apply Permutation_swap.
  - by rewrite IH1.
Qed.

Section FilteredTasksMore.
Variable toLowerCase : string → string.
Variable Date_getTime : string → option Z.

Lemma containsCI_narrow (s q q' : string) :
  (∃ a b, toLowerCase q' = a +:+ toLowerCase q +:+ b) →
  containsCI toLowerCase s q' → containsCI toLowerCase s q.
Proof.
  intros (a & b & Hq) (a' & b' & Hs). unfold containsCI.
  exists (a' +:+ a), (b +:+ b').
  by rewrite Hs, Hq, !string_app_assoc.
Qed.

Lemma filteredTasks_nil_iff (tasks : list Task) (q : string) :
  filteredTasks toLowerCase Date_getTime tasks q = [] ↔
  ∀ task, task ∈ tasks → ¬ matches toLowerCase q task.
Proof.
  split.
  - intros Hnil task Hin Hm.
    assert (task ∈ filteredTasks toLowerCase Date_getTime tasks q) as Hd
      by by apply filteredTasks_elem_of.
    rewrite Hnil in Hd. by apply elem_of_nil in Hd.
  - intros Hnone.
    destruct (filteredTasks toLowerCase Date_getTime tasks q) as [|t d] eqn:Hd;
      [done|].
    assert (t ∈ filteredTasks toLowerCase Date_getTime tasks q) as Ht
      by (rewrite Hd; apply list_elem_of_here).
    apply filteredTasks_elem_of in Ht as [Hin Hm]. by destruct (Hnone t Hin).
Qed.

Lemma inOrder_antisym (a b : Task) :
  dated Date_getTime a → dated Date_getTime b →
  inOrder Date_getTime a b → inOrder Date_getTime b a →
  isCompleted a = isCompleted b ∧
  Date_getTime (createdAt a) = Date_getTime (createdAt b).
Proof.
  intros [ta Ha] [tb Hb] [Hab1 Hab2] [Hba1 Hba2].
  unfold openFirst, oldestFirst, timestamp in *.
  assert (isCompleted a = isCompleted b) as Hc.
  { destruct (isCompleted a), (isCompleted b); auto.
    symmetry. auto. }
  split; [done|].
  specialize (Hab2 Hc ta tb Ha Hb). symmetry in Hc.
  specialize (Hba2 Hc tb ta Hb Ha).
  rewrite Ha, Hb. f_equal. lia.
Qed.

Lemma filteredTasks_sorted (tasks : list Task) (q : string) :
  (∀ task, task ∈ tasks → dated Date_getTime task) →
  StronglySorted (inOrder Date_getTime)
    (filteredTasks toLowerCase Date_getTime tasks q).
Proof.
  intros Hdated. unfold filteredTasks.
  apply (Array_sort_sorted _ (dated Date_getTime)).
  - apply inOrder_trans.
  - apply compareTasks_after.
  - intros x y _ _. apply compareTasks_before.
  - apply Forall_forall. intros t Ht. apply Hdated.
    apply list_elem_of_In, filter_In in Ht as [Ht _]. by apply list_elem_of_In.
Qed.

End FilteredTasksMore.

(** X1: when the fetched tasks have pairwise different ids, so have the
    rows of the list: the keys React is given are unique. *)
Theorem keys_unique
    (toLowerCase : string → string) (Date_getTime : string → option Z)
    (st : State) :
  NoDup (id <$> tasks st) →
  NoDup (keys (content toLowerCase Date_getTime st)).
Proof.
  intros Hnd. unfold content.
  repeat case_match; simpl; try apply NoDup_nil_2.
  unfold filteredTasks. rewrite Array_sort_Permutation.
  eapply sublist_NoDup; [exact Hnd|]. apply fmap_sublist, filter_sublist.
Qed.

Lemma keys_unique_witness :
  keys (content JsString.asciiLower JsDate.isoDateTime
          {| tasks := undatedTasks; loading := false; searchQuery := "the" |})
    = ["1"; "2"] ∧
  NoDup (keys (content JsString.asciiLower JsDate.isoDateTime
          {| tasks := undatedTasks; loading := false; searchQuery := "the" |})).
Proof.
  split; [reflexivity|].
  apply keys_unique. simpl.
  repeat (apply NoDup_cons; split;
          [rewrite ?elem_of_cons, elem_of_nil; intuition congruence|]).
  apply NoDup_nil_2.
Defined.

(** X2: the query counts only through its lower-casing, and a query whose
    lower-casing contains that of another displays no task the other one
    does not display: typing on narrows the list. *)
Theorem query_narrows
    (toLowerCase : string → string) (Date_getTime : string → option Z)
    (tasks : list Task) (q q' : string) :
  (toLowerCase q = toLowerCase q' →
   filteredTasks toLowerCase Date_getTime tasks q =
   filteredTasks toLowerCase Date_getTime tasks q') ∧
  ((∃ a b, toLowerCase q' = a +:+ toLowerCase q +:+ b) →
   ∀ task, task ∈ filteredTasks toLowerCase Date_getTime tasks q' →
           task ∈ filteredTasks toLowerCase Date_getTime tasks q).
Proof.
  split.
  - intros Heq. unfold filteredTasks, matchesQuery. by rewrite Heq.
  - intros Hsub task. rewrite !filteredTasks_elem_of.
    intros [Hin Hm]. split; [done|].
    destruct Hm as [Ht|(d & Hd & Hc)].
    + left. by eapply containsCI_narrow.
    + right. exists d. split; [done|]. by eapply containsCI_narrow.
Qed.

Lemma query_narrows_witness :
  let tasks :=
    [ mkTask "1" "Buy Milk" None true "2024-01-01";
      mkTask "2" "call bob" (Some "about the MILK run") false "2024-01-03";
      mkTask "3" "Milan trip" None false "2024-01-02" ] in
  filteredTasks JsString.asciiLower JsDate.isoDateTime tasks "MIL" =
  filteredTasks JsString.asciiLower JsDate.isoDateTime tasks "mil" ∧
  ∀ task, task ∈ filteredTasks JsString.asciiLower JsDate.isoDateTime tasks "Milk" →
          task ∈ filteredTasks JsString.asciiLower JsDate.isoDateTime tasks "mil".
Proof.
  split.
  - exact (proj1 (query_narrows JsString.asciiLower JsDate.isoDateTime _ "MIL" "mil")
             eq_refl).
  - apply (proj2 (query_narrows JsString.asciiLower JsDate.isoDateTime _ "mil" "Milk")).
    by exists "", "k".
Defined.

(** X3: when every fetched creation date is a date and no two fetched tasks
    share completion and creation time, the displayed list does not depend
    on the order in which the server returned the tasks. *)
Theorem display_independent_of_fetch_order
    (toLowerCase : string → string) (Date_getTime : string → option Z)
    (tasks tasks' : list Task) (q : string) :
  tasks ≡ₚ tasks' →
  (∀ task, task ∈ tasks → is_Some (Date_getTime (createdAt task))) →
  distinctKeys Date_getTime tasks →
  filteredTasks toLowerCase Date_getTime tasks q =
  filteredTasks toLowerCase Date_getTime tasks' q.
Proof.
  intros Hperm Hdated Hkeys.
  apply (StronglySorted_unique_strong (inOrder Date_getTime)).
  - intros a b Ha Hb Hab Hba.
    apply filteredTasks_elem_of in Ha as [Ha _].
    apply filteredTasks_elem_of in Hb as [Hb _].
    rewrite <- Hperm in Hb.
    destruct (inOrder_antisym Date_getTime a b) as [Hc Ht];
      [by apply Hdated|by apply Hdated|done|done|].
    by apply Hkeys.
  - by apply filteredTasks_sorted.
  - apply filteredTasks_sorted. intros t Ht. apply Hdated. by rewrite Hperm.
  - unfold filteredTasks. rewrite !Array_sort_Permutation.
    by apply filter_Permutation.
Qed.

Lemma display_independent_of_fetch_order_witness :
  let a := mkTask "1" "Buy Milk" None true "2024-01-01" in
  let b := mkTask "2" "call bob" (Some "about the MILK run") false "2024-01-03" in
  let c := mkTask "3" "Milan trip" None false "2024-01-02" in
  filteredTasks JsString.asciiLower JsDate.isoDateTime [a; b; c] "mil" =
  filteredTasks JsString.asciiLower JsDate.isoDateTime [c; a; b] "mil".
Proof.
  apply display_independent_of_fetch_order.
  - exact (Permutation_app_comm [_; _] [_]).
  - intros task Ht.
    repeat (apply elem_of_cons in Ht as [->|Ht]; [by eexists|]).
    by apply elem_of_nil in Ht.
  - intros x y Hx Hy.
    repeat (apply elem_of_cons in Hx as [->|Hx]);
      try (by apply elem_of_nil in Hx);
      repeat (apply elem_of_cons in Hy as [->|Hy]);
      try (by apply elem_of_nil in Hy); try done; vm_compute; congruence.
Defined.

(** X4: the comparator is consistent: swapping its arguments negates the
    result, a task compares equal to itself, and on tasks whose creation
    date is a date "not after" is transitive. *)
Theorem compareTasks_consistent
    (Date_getTime : string → option Z) (a b c : Task) :
  sortCompare (compareTasks Date_getTime) a b =
    - sortCompare (compareTasks Date_getTime) b a ∧
  sortCompare (compareTasks Date_getTime) a a = 0 ∧
  (is_Some (Date_getTime (createdAt a)) →
   is_Some (Date_getTime (createdAt b)) →
   is_Some (Date_getTime (createdAt c)) →
   sortCompare (compareTasks Date_getTime) a b ≤ 0 →
   sortCompare (compareTasks Date_getTime) b c ≤ 0 →
   sortCompare (compareTasks Date_getTime) a c ≤ 0).
Proof.
  unfold sortCompare, compareTasks. split; [|split].
  - destruct (isCompleted a), (isCompleted b); simpl; try done;
      destruct (Date_getTime (createdAt a)), (Date_getTime (createdAt b));
      try done; lia.
  - rewrite Bool.eqb_reflx. simpl.
    destruct (Date_getTime (createdAt a)); [lia|done].
  - intros [ta ->] [tb ->] [tc ->].
    destruct (isCompleted a), (isCompleted b), (isCompleted c); simpl; lia.
Qed.

Lemma compareTasks_consistent_witness :
  let a := mkTask "3" "renew passport" None false "2024-01-01" in
  let b := mkTask "1" "water the plants" None false "2024-01-02" in
  let c := mkTask "9" "file taxes" None true "2023-12-31" in
  sortCompare (compareTasks JsDate.isoDateTime) a c ≤ 0.
Proof.
  apply (proj2 (proj2 (compareTasks_consistent JsDate.isoDateTime
           (mkTask "3" "renew passport" None false "2024-01-01")
           (mkTask "1" "water the plants" None false "2024-01-02")
           (mkTask "9" "file taxes" None true "2023-12-31"))));
    try (by eexists); by vm_compute.
Defined.

(** ** What the screen shows *)

Lemma length_zero_nil {A} (l : list A) : (length l =? 0)%nat = true ↔ l = [].
Proof. destruct l; simpl; split; done. Qed.

(** X5: the "no tasks yet" placeholder is shown exactly when nothing is
    loading and the task state is empty, whatever the search box holds. *)
Theorem content_EmptyNoTasks
    (toLowerCase : string → string) (Date_getTime : string → option Z)
    (st : State) :
  content toLowerCase Date_getTime st = EmptyNoTasks ↔
  loading st = false ∧ tasks st = [].
Proof.
  unfold content. destruct (loading st); [split; [done|by intros [? _]]|].
  destruct (tasks st) as [|t ts] eqn:Hts; simpl; [done|].
  rewrite andb_false_r.
  split; [|by intros [_ ?]]. by repeat case_match.
Qed.

(** X6: provided the engine lower-cases the empty string to itself, the
    list is never rendered empty, and the "no match" placeholder is shown
    exactly when nothing is loading, there are tasks and none of them
    matches the query, which it quotes. *)
Theorem content_list_or_no_match
    (toLowerCase : string → string) (Date_getTime : string → option Z)
    (toLowerCase_empty : toLowerCase "" = "")
    (st : State) :
  (∀ items, content toLowerCase Date_getTime st = FlatList items →
     items ≠ [] ∧
     items = filteredTasks toLowerCase Date_getTime (tasks st) (searchQuery st)) ∧
  (∀ q, content toLowerCase Date_getTime st = EmptyNoMatch q ↔
     loading st = false ∧ q = searchQuery st ∧ tasks st ≠ [] ∧
     ∀ task, task ∈ tasks st → ¬ matches toLowerCase q task).
Proof.
  assert (∀ ts, ts ≠ [] →
            filteredTasks toLowerCase Date_getTime ts "" ≠ []) as Hall.
  { intros [|t ts] Hne Hnil; [done|].
    apply (proj1 (filteredTasks_nil_iff _ _ _ _) Hnil t); [apply list_elem_of_here|].
    left. unfold containsCI. rewrite toLowerCase_empty.
    by exists "", (toLowerCase (title t)). }
  unfold content. destruct (loading st).
  { split; [done|]. intros q. split; [done|by intros [? _]]. }
  destruct (length (filteredTasks toLowerCase Date_getTime (tasks st)
                      (searchQuery st)) =? 0)%nat eqn:Hf.
  - apply length_zero_nil in Hf. simpl.
    destruct (length (tasks st) =? 0)%nat eqn:Ht.
    + apply length_zero_nil in Ht. split; [done|].
      intros q. split; [done|]. by intros (_ & _ & ? & _).
    + assert (tasks st ≠ []) as Hne.
      { intros Hnil. rewrite Hnil in Ht. done. }
      destruct (searchQuery st) as [|c q'] eqn:Hq; simpl.
      * by destruct (Hall _ Hne).
      * split; [done|]. intros q. split.
        -- intros [= <-]. do 3 (split; [done|]).
           exact (proj1 (filteredTasks_nil_iff _ Date_getTime _ _) Hf).
        -- by intros (_ & -> & _ & _).
  - simpl. split.
    + intros items [= <-]. split; [|done].
      intros Hnil. by rewrite Hnil in Hf.
    + intros q. split; [done|]. intros (_ & -> & _ & Hnone).
      apply (proj2 (filteredTasks_nil_iff _ Date_getTime _ _)) in Hnone.
      by rewrite Hnone in Hf.
Qed.

Lemma content_list_or_no_match_witness :
  let st := {| tasks := undatedTasks; loading := false; searchQuery := "milk" |} in
  content JsString.asciiLower JsDate.isoDateTime st = EmptyNoMatch "milk" ∧
  ∀ task, task ∈ undatedTasks → ¬ matches JsString.asciiLower "milk" task.
Proof.
  split; [reflexivity|].
  apply (proj2 (content_list_or_no_match JsString.asciiLower JsDate.isoDateTime
                  eq_refl
                  {| tasks := undatedTasks; loading := false;
                     searchQuery := "milk" |})
         "milk").
  reflexivity.
Defined.

(** ** Declined and failed actions *)

(** X7: a delete dialog that is not confirmed (cancelled, dismissed) sends
    nothing and changes nothing: the dialog is all that happened. *)
Theorem delete_not_confirmed (w : World) (st : State) (item : Task) :
  let buttons := [ {| text := "İptal"; style := StyleCancel |};
                   {| text := "Sil"; style := StyleDestructive |} ] in
  press w [] buttons ≠ Some 1%nat →
  exec w (onGesture (PressDelete item)) st =
    (tt, st,
     [ EvAlert "Görevi Sil" "Bu görevi silmek istediğinizden emin misiniz?"
         buttons (press w [] buttons) ]).
Proof.
  intros buttons Hpress. unfold exec. cbn.
  fold buttons. destruct (press w [] buttons) as [[|[|n]]|]; cbn; done.
Qed.

Lemma delete_not_confirmed_witness :
  exec (serving undatedTasks (Some 0%nat))
    (onGesture (PressDelete (mkTask "2" "call the bank" None false "soon")))
    {| tasks := undatedTasks; loading := false; searchQuery := "" |} =
    (tt, {| tasks := undatedTasks; loading := false; searchQuery := "" |},
     [ EvAlert "Görevi Sil" "Bu görevi silmek istediğinizden emin misiniz?"
         [ {| text := "İptal"; style := StyleCancel |};
           {| text := "Sil"; style := StyleDestructive |} ] (Some 0%nat) ]).
Proof.
  apply (delete_not_confirmed (serving undatedTasks (Some 0%nat))). by vm_compute.
Defined.

(** X8: a rejected PUT, or a rejected DELETE after confirmation, leaves the
    state as it was and is followed by one error alert and nothing else: no
    refetch, no change of the list. *)
Theorem rejected_update_changes_nothing
    (w : World) (st : State) (item : Task) (err : AxiosError) :
  let put := axios_put (API_URL +:+ "/" +:+ id item)
               {| is_completed := negb (isCompleted item) |} in
  let del := axios_delete (API_URL +:+ "/" +:+ id item) in
  let buttons := [ {| text := "İptal"; style := StyleCancel |};
                   {| text := "Sil"; style := StyleDestructive |} ] in
  let dialog :=
    EvAlert "Görevi Sil" "Bu görevi silmek istediğinizden emin misiniz?"
      buttons (Some 1%nat) in
  (respond w [] put = inr err →
   ∃ pressed,
     exec w (onGesture (PressCheckbox item)) st =
       (tt, st,
        [ EvRequest put (inr err);
          EvAlert "Hata" "Görevin durumunu güncellerken hata oluştu." []
            pressed ])) ∧
  (press w [] buttons = Some 1%nat →
   respond w [dialog] del = inr err →
   ∃ pressed,
     exec w (onGesture (PressDelete item)) st =
       (tt, st,
        [ dialog; EvRequest del (inr err);
          EvAlert "Hata" "Görev silinirken hata oluştu." [] pressed ])).
Proof.
  unfold exec. cbn. split.
  - intros ->. cbn. by eexists.
  - intros Hp Hr. rewrite Hp. cbn. rewrite Hr. cbn. by eexists.
Qed.

Lemma rejected_update_changes_nothing_witness :
  let item := mkTask "2" "call the bank" None false "soon" in
  let st := {| tasks := undatedTasks; loading := false; searchQuery := "" |} in
  ∃ pressed,
    exec (offline None) (onGesture (PressCheckbox item)) st =
      (tt, st,
       [ EvRequest (axios_put (API_URL +:+ "/" +:+ id item)
                      {| is_completed := negb (isCompleted item) |})
           (inr NetworkError);
         EvAlert "Hata" "Görevin durumunu güncellerken hata oluştu." []
           pressed ]).
Proof.
  exact (proj1 (rejected_update_changes_nothing (offline None)
                  {| tasks := undatedTasks; loading := false; searchQuery := "" |}
                  (mkTask "2" "call the bank" None false "soon") NetworkError)
           eq_refl).
Defined.

(** ** Sessions, gesture by gesture *)

Lemma run_bind {A B} (w : World) (p : Prog A) (f : A → Prog B)
    (st : State) (h : list Event) :
  run w (p ≫= f) st h =
    let r := run w p st h in run w (f r.1.1) r.1.2 r.2.
Proof.
  revert st h. induction p as [a|X e k IH]; intros st h; [done|].
  simpl. apply IH.
Qed.

Lemma answer_shift (w : World) (h h0 : list Event) {X} (e : Effect X) :
  answer (shiftWorld h w) h0 e = answer w (h ++ h0) e.
Proof. by destruct e. Qed.

(** Running after [h] is running afresh in the world as it looks after
    [h]. *)
Lemma run_shift {A} (w : World) (p : Prog A) (st : State) (h h0 : list Event) :
  run w p st (h ++ h0) =
    let r := run (shiftWorld h w) p st h0 in (r.1, h ++ r.2).
Proof.
  revert st h0. induction p as [a|X e k IH]; intros st h0; [done|].
  simpl. rewrite answer_shift, <- (assoc_L (++)). apply IH.
Qed.

Lemma run_exec {A} (w : World) (p : Prog A) (st : State) (h : list Event) :
  run w p st h =
    let r := exec (shiftWorld h w) p st in (r.1, h ++ r.2).
Proof. rewrite <- (right_id_L [] (++) h) at 1. apply run_shift. Qed.

Lemma exec_session_cons (w : World) (g : Gesture) (gs : list Gesture)
    (st : State) :
  exec w (session (g :: gs)) st =
    let r1 := exec w (onGesture g) st in
    let r2 := exec (shiftWorld (logOf r1) w) (session gs) (stateAfter r1) in
    (tt, stateAfter r2, logOf r1 ++ logOf r2).
Proof.
  unfold exec at 1. cbn [session]. rewrite run_bind. cbn zeta.
  rewrite run_exec. cbn zeta.
  unfold stateAfter, logOf, exec.
  by destruct (run _ (session gs) _ _) as [[[] ?] ?].
Qed.

(** Every way a gesture can go: all answers of server and user. *)
Ltac outcomes w :=
  unfold exec, logOf, stateAfter; cbn;
  repeat match goal with
  | |- context [respond w ?h ?r] =>
      destruct (respond w h r) as [?|?]; cbn
  | |- context [press w ?h ?b] =>
      destruct (press w h b) as [[|[|?]]|]; cbn
  end.

Lemma onGesture_fetched (w : World) (st : State) (g : Gesture) :
  let r := exec w (onGesture g) st in
  setTasksCalls (logOf r) = fetchedLists (logOf r) ∧
  tasks (stateAfter r) = default (tasks st) (last (fetchedLists (logOf r))).
Proof. destruct g; outcomes w; done. Qed.

Lemma onGesture_loading (w : World) (st : State) (g : Gesture) :
  loading st = false → loading (stateAfter (exec w (onGesture g) st)) = false.
Proof. intros Hl. destruct g; outcomes w; done. Qed.

Lemma onGesture_searchQuery (w : World) (st : State) (g : Gesture) :
  let r := exec w (onGesture g) st in
  typedTexts (logOf r) = option_list (typedBy g) ∧
  searchQuery (stateAfter r) = default (searchQuery st) (typedBy g).
Proof. destruct g; outcomes w; done. Qed.

Lemma onGesture_failures (w : World) (st : State) (g : Gesture) :
  let r := exec w (onGesture g) st in
  length (errorAlerts (logOf r)) = length (failures (logOf r)).
Proof. destruct g; outcomes w; done. Qed.

Lemma onGesture_navigations (w : World) (st : State) (g : Gesture) :
  navigations (logOf (exec w (onGesture g) st)) = option_list (navigationOf g).
Proof. destruct g; outcomes w; done. Qed.

Lemma onGesture_local (w : World) (st : State) (g : Gesture) :
  local g = true →
  let r := exec w (onGesture g) st in
  requests (logOf r) = [] ∧ alertsShown (logOf r) = [] ∧
  tasks (stateAfter r) = tasks st ∧ loading (stateAfter r) = loading st.
Proof. intros Hl. destruct g; try done; outcomes w; done. Qed.


(** ** Whole sessions *)


(** X10: a session that starts with nothing loading ends with nothing
    loading: every fetch resets the flag, whatever its outcome. *)
Theorem loading_reset_after_session
    (w : World) (gs : list Gesture) (st : State) :
  loading st = false →
  loading (stateAfter (exec w (session gs) st)) = false.
Proof.
  revert w st. induction gs as [|g gs IH]; intros w st Hl; [done|].
  rewrite exec_session_cons. cbn zeta.
  unfold stateAfter at 1. cbn [fst snd].
  apply IH. by apply onGesture_loading.
Qed.

Lemma loading_reset_after_session_witness :
  loading (stateAfter (exec (offline (Some 1%nat))
    (session [Focus; PressDelete (mkTask "2" "call the bank" None false "soon")])
    initialState)) = false.
Proof. by apply loading_reset_after_session. Defined.

(** X11: the search text is what the user typed last, or the initial text
    if nothing was typed: no fetch, update, delete or failure resets it. *)
Theorem searchQuery_is_last_typed
    (w : World) (gs : list Gesture) (st : State) :
  let r := exec w (session gs) st in
  typedTexts (logOf r) = omap typedBy gs ∧
  searchQuery (stateAfter r) =
    default (searchQuery st) (last (omap typedBy gs)).
Proof.
  revert w st. induction gs as [|g gs IH]; intros w st; [done|].
  rewrite exec_session_cons. cbn zeta.
  destruct (onGesture_searchQuery w st g) as [Hs1 Ht1].
  destruct (IH (shiftWorld (logOf (exec w (onGesture g) st)) w)
              (stateAfter (exec w (onGesture g) st))) as [Hs2 Ht2].
  clear IH. unfold stateAfter, logOf in *. cbn [fst snd] in *.
  unfold typedTexts in *. rewrite omap_app, Hs1, Hs2, Ht2, Ht1.
  clear. destruct g; simpl; (split; [reflexivity|]); try reflexivity.
  rewrite last_cons. by destruct (last _).
Qed.

(** X12: no failure is silent and no alarm is false: in every session the
    error alerts are as many as the rejected requests. *)
Theorem every_failure_alerts (w : World) (gs : list Gesture) (st : State) :
  let r := exec w (session gs) st in
  length (errorAlerts (logOf r)) = length (failures (logOf r)).
Proof.
  revert w st. induction gs as [|g gs IH]; intros w st; [done|].
  rewrite exec_session_cons. cbn zeta.
  pose proof (onGesture_failures w st g) as H1.
  pose proof (IH (shiftWorld (logOf (exec w (onGesture g) st)) w)
                (stateAfter (exec w (onGesture g) st))) as H2.
  clear IH. unfold stateAfter, logOf in *. cbn [fst snd] in *.
  unfold errorAlerts, alertsShown, failures in *.
  rewrite !omap_app, List.filter_app, !length_app. cbn zeta in *. lia.
Qed.

(** X13: the screen navigates only when edit or the add button is pressed,
    once per press and always to [add_edit], a route the application's
    navigator registers; edit carries the id of the pressed task. *)
Theorem navigations_of_session (w : World) (gs : list Gesture) (st : State) :
  navigations (logOf (exec w (session gs) st)) = omap navigationOf gs ∧
  ∀ rn params nav,
    (rn, params) ∈ navigations (logOf (exec w (session gs) st)) →
    nav ∈ navigators App →
    route nav rn = Some AddEditScreen.
Proof.
  assert (navigations (logOf (exec w (session gs) st)) = omap navigationOf gs)
    as Hnav.
  { revert w st. induction gs as [|g gs IH]; intros w st; [done|].
    rewrite exec_session_cons. cbn zeta.
    pose proof (onGesture_navigations w st g) as H1.
    pose proof (IH (shiftWorld (logOf (exec w (onGesture g) st)) w)
                  (stateAfter (exec w (onGesture g) st))) as H2.
    clear IH. unfold logOf in *. cbn [fst snd] in *.
    unfold navigations in *. rewrite omap_app, H1, H2.
    simpl. by destruct (navigationOf g). }
  split; [done|]. rewrite Hnav. intros rn params nav Hin Hnavs.
  apply list_elem_of_omap in Hin as (g & _ & Hg).
  cbn in Hnavs. apply list_elem_of_singleton in Hnavs as ->.
  destruct g; simpl in Hg; try done; by injection Hg as <- <-.
Qed.

Lemma navigations_of_session_witness :
  let item := mkTask "2" "call the bank" None false "soon" in
  navigations (logOf (exec (serving [item] None)
                        (session [Focus; PressEdit item; PressFAB])
                        initialState))
    = [ ("add_edit", Some {| taskId := Some "2" |}); ("add_edit", None) ] ∧
  ∀ nav, nav ∈ navigators App → route nav "add_edit" = Some AddEditScreen.
Proof.
  destruct (navigations_of_session
              (serving [mkTask "2" "call the bank" None false "soon"] None)
              [Focus; PressEdit (mkTask "2" "call the bank" None false "soon");
               PressFAB] initialState) as [Hnav Hroute].
  split; [exact Hnav|].
  intros nav Hin. apply (Hroute "add_edit" None nav); [|done].
  rewrite Hnav. apply list_elem_of_further, list_elem_of_here.
Defined.

(** X14: typing in the search box and navigating stay on the device: a
    session of such gestures sends no request, shows no alert and leaves
    the tasks and the loading flag as they were. *)
Theorem local_gestures_stay_local
    (w : World) (gs : list Gesture) (st : State) :
  Forall (λ g, local g = true) gs →
  let r := exec w (session gs) st in
  requests (logOf r) = [] ∧ alertsShown (logOf r) = [] ∧
  tasks (stateAfter r) = tasks st ∧ loading (stateAfter r) = loading st.
Proof.
  revert w st. induction gs as [|g gs IH]; intros w st Hgs; [done|].
  apply Forall_cons in Hgs as [Hg Hgs].
  rewrite exec_session_cons. cbn zeta.
  destruct (onGesture_local w st g Hg) as (Hr1 & Ha1 & Ht1 & Hl1).
  destruct (IH (shiftWorld (logOf (exec w (onGesture g) st)) w)
              (stateAfter (exec w (onGesture g) st)) Hgs)
    as (Hr2 & Ha2 & Ht2 & Hl2).
  clear IH. unfold stateAfter, logOf in *. cbn [fst snd] in *.
  unfold requests, alertsShown in *. rewrite !omap_app.
  rewrite Hr1, Hr2, Ha1, Ha2, Ht2, Ht1, Hl2, Hl1. done.
Qed.

Lemma local_gestures_stay_local_witness :
  let item := mkTask "2" "call the bank" None false "soon" in
  let st := {| tasks := [item]; loading := false; searchQuery := "" |} in
  let r := exec (offline None)
             (session [ChangeSearchText "bank"; PressEdit item; PressFAB]) st in
  requests (logOf r) = [] ∧ alertsShown (logOf r) = [] ∧
  tasks (stateAfter r) = [item] ∧ loading (stateAfter r) = false.
Proof.
  apply (local_gestures_stay_local (offline None)
           [ChangeSearchText "bank";
            PressEdit (mkTask "2" "call the bank" None false "soon"); PressFAB]).
  by repeat constructor.
Defined.

(** ** What the user can reach from the rendered screen *)

Lemma onGesture_acts (w : World) (st : State) (g : Gesture) (r : Request) :
  r ∈ requests (logOf (exec w (onGesture g) st)) → method r ≠ GET →
  ∃ item, (g = PressCheckbox item ∨ g = PressDelete item) ∧
          url r = API_URL +:+ "/" +:+ id item.
Proof.
  destruct g as [|item|item|item| |q]; outcomes w; intros Hin Hm;
    repeat (apply elem_of_cons in Hin as [->|Hin]; [try done; eauto|]);
    by apply elem_of_nil in Hin.
Qed.

Lemma offers_item (c : Content) (g : Gesture) (item : Task) :
  g = PressCheckbox item ∨ g = PressDelete item →
  offers c g = true → ∃ items, c = FlatList items ∧ item ∈ items.
Proof.
  intros [->| ->]; simpl; destruct c; try done;
    intros H%bool_decide_eq_true; eauto.
Qed.

Lemma content_FlatList_subset
    (toLowerCase : string → string) (Date_getTime : string → option Z)
    (st : State) (items : list Task) (item : Task) :
  content toLowerCase Date_getTime st = FlatList items →
  item ∈ items → item ∈ tasks st.
Proof.
  unfold content. repeat case_match; try done. intros [= <-] Hin.
  by apply filteredTasks_elem_of in Hin as [? _].
Qed.

(** X15: whatever the user does on the rendered screen, starting from the
    first render, every PUT and DELETE goes to the URL of a task that a
    successful GET has returned: the screen only updates and deletes tasks
    the server itself listed. *)
Theorem ui_acts_on_fetched_tasks
    (toLowerCase : string → string) (Date_getTime : string → option Z)
    (w : World) (st : State) (h : list Event) (r : Request) :
  reachable toLowerCase Date_getTime w st h →
  r ∈ requests h → method r ≠ GET →
  ∃ ts t, ts ∈ fetchedLists h ∧ t ∈ ts ∧ url r = API_URL +:+ "/" +:+ id t.
Proof.
  intros Hreach. revert r.
  assert ((tasks st = [] ∨ tasks st ∈ fetchedLists h) ∧
          ∀ r, r ∈ requests h → method r ≠ GET →
               ∃ ts t, ts ∈ fetchedLists h ∧ t ∈ ts ∧
                       url r = API_URL +:+ "/" +:+ id t) as [_ H]; [|exact H].
  induction Hreach as [|st h g Hreach [IHt IHr] Hoff].
  { split; [by left|]. intros r Hr. by apply elem_of_nil in Hr. }
  rewrite run_exec. cbn zeta.
  set (w' := shiftWorld h w).
  destruct (onGesture_fetched w' st g) as [_ Htasks].
  unfold stateAfter, logOf in *. cbn [fst snd] in *.
  unfold fetchedLists, requests in *. setoid_rewrite omap_app.
  setoid_rewrite elem_of_app. split.
  - rewrite Htasks.
    destruct (last _) as [ts|] eqn:Hlast; simpl.
    + right. right. apply last_Some in Hlast as [l' ->].
      apply elem_of_app. right. apply list_elem_of_here.
    + destruct IHt; auto.
  - intros r [Hr|Hr] Hm.
    + destruct (IHr r Hr Hm) as (ts & t & Hts & Ht & Hu). eauto 10.
    + destruct (onGesture_acts w' st g r Hr Hm) as (item & Hg & Hu).
      destruct (offers_item _ _ _ Hg Hoff) as (items & Hc & Hin).
      pose proof (content_FlatList_subset _ _ _ _ _ Hc Hin) as Hst.
      destruct IHt as [Hnil|Hfetched].
      * rewrite Hnil in Hst. by apply elem_of_nil in Hst.
      * exists (tasks st), item. auto.
Qed.

Lemma ui_acts_on_fetched_tasks_witness :
  let item := mkTask "7" "renew passport" None false "2024-01-01" in
  let w := serving [item] (Some 1%nat) in
  let r1 := run w (onGesture Focus) initialState [] in
  let r2 := run w (onGesture (PressDelete item)) (stateAfter r1) (logOf r1) in
  axios_delete "http://10.0.2.2:3000/api/tasks/7" ∈ requests (logOf r2) ∧
  ∃ ts t, ts ∈ fetchedLists (logOf r2) ∧ t ∈ ts ∧
          "http://10.0.2.2:3000/api/tasks/7" = API_URL +:+ "/" +:+ id t.
Proof.
  assert (axios_delete "http://10.0.2.2:3000/api/tasks/7"
            ∈ requests (logOf (run (serving
                 [mkTask "7" "renew passport" None false "2024-01-01"] (Some 1%nat))
                 (onGesture (PressDelete
                    (mkTask "7" "renew passport" None false "2024-01-01")))
                 (stateAfter (run (serving
                    [mkTask "7" "renew passport" None false "2024-01-01"]
                    (Some 1%nat)) (onGesture Focus) initialState []))
                 (logOf (run (serving
                    [mkTask "7" "renew passport" None false "2024-01-01"]
                    (Some 1%nat)) (onGesture Focus) initialState []))))) as Hin.
  { vm_compute. apply list_elem_of_further, list_elem_of_here. }
  split; [exact Hin|].
  refine (ui_acts_on_fetched_tasks JsString.asciiLower JsDate.isoDateTime
            _ _ _ _ _ Hin _); [|done].
  apply reachable_step; [|reflexivity].
  apply reachable_step; [|reflexivity].
  apply reachable_init.
Defined.
